(** * AutoEncoderCV: the autoencoder collective variable of the tutorial
    docs/notebooks/tutorials/adv_newcv_scratch.ipynb

    The class is glue code around three sub-modules (norm_in, encoder,
    decoder).  The development embeds its constructor, its two forward
    paths and its training step, with Python dictionaries as finite maps,
    exceptions as an error result, and the metrics sink of [self.log] as an
    explicit state. *)

From stdpp Require Import gmap strings list fin_maps.

Set Warnings "-register-all,-clear-no-such-hyp".

Local Open Scope string_scope.
Local Open Scope list_scope.
Local Open Scope Z_scope.

(** ** Python values, exceptions, results *)

(** The values an [options] dictionary can hold. *)
Inductive value : Type :=
  | VNone
  | VBool (b : bool)
  | VInt (n : Z)
  | VStr (s : string)
  | VDict (d : gmap string value).

(** The exceptions the modelled code can raise.  [KeyError] is what a
    dictionary lookup of an absent key raises (the specification calls it
    MissingKeyError); [TypeError] is raised by calling [None] and by [**]
    on something that is not a mapping; [AttributeError] by reading an
    attribute that was never assigned; [ConfigurationError] is the
    specification's name for the rejection of an unknown options key. *)
Inductive exn : Type :=
  | IndexError
  | KeyError (k : string)
  | TypeError
  | AttributeError
  | ConfigurationError.

Inductive result (A : Type) : Type :=
  | Ok (a : A)
  | Err (e : exn).
Arguments Ok {A} a.
Arguments Err {A} e.

#[global] Instance result_ret : MRet result := λ A a, Ok a.
#[global] Instance result_bind : MBind result := λ A B f r,
  match r with
  | Ok a => f a
  | Err e => Err e
  end.

#[global] Instance result_fmap : FMap result := λ A B f r,
  match r with
  | Ok a => Ok (f a)
  | Err e => Err e
  end.

(** [l[i]] on a Python list, negative indices counting from the end. *)
Definition list_getitem {A} (l : list A) (i : Z) : result A :=
  let n := Z.of_nat (length l) in
  let j := if i <? 0 then i + n else i in
  if (j <? 0) || (n <=? j) then Err IndexError
  else match l !! Z.to_nat j with
       | Some a => Ok a
       | None => Err IndexError
       end.

(** [d[k]] on a Python dict. *)
Definition dict_getitem {V} (d : gmap string V) (k : string) : result V :=
  match d !! k with
  | Some v => Ok v
  | None => Err (KeyError k)
  end.

(** [k in d]. *)
Definition dict_contains {V} (d : gmap string V) (k : string) : bool :=
  match d !! k with
  | Some _ => true
  | None => false
  end.

(** [d.setdefault(k, v)], as the dictionary it leaves behind. *)
Definition setdefault {V} (d : gmap string V) (k : string) (v : V) : gmap string V :=
  match d !! k with
  | Some _ => d
  | None => <[k := v]> d
  end.

(** [v is None] and [v is False]: identity with the two singletons. *)
Definition is_None (v : value) : bool :=
  match v with
  | VNone => true
  | _ => false
  end.

Definition is_False (v : value) : bool :=
  match v with
  | VBool false => true
  | _ => false
  end.


(** [**v] in a call: only a mapping can be unpacked into keyword
    arguments. *)
Definition unpack_kwargs (v : value) : result (gmap string value) :=
  match v with
  | VDict d => Ok d
  | _ => Err TypeError
  end.

(** ** The collaborators of the class *)

(** The deep-learning framework the class delegates to.  The classes
    [Normalization], [FeedForward] and [MSELoss] of mlcolvar.core are not
    part of the sources; they are taken as given: tensors and scalar
    losses, the two sub-module classes with their constructors, which may
    reject their arguments, what the sub-modules compute, and the
    mean-squared-error loss with its keyword arguments (["weights"], when
    given). *)
Class Framework : Type := {
  tensor : Type;
  scalar : Type;
  Normalization : Type;
  FeedForward : Type;
  (* Normalization(in_features, **kwargs) *)
  Normalization_init : Z → gmap string value → result Normalization;
  (* FeedForward(layers, **kwargs) *)
  FeedForward_init : list Z → gmap string value → result FeedForward;
  Normalization_call : Normalization → tensor → tensor;
  Normalization_inverse : Normalization → tensor → tensor;
  FeedForward_call : FeedForward → tensor → tensor;
  MSELoss : tensor → tensor → gmap string tensor → scalar
}.

(** [BLOCKS = ['norm_in','encoder','decoder']] *)
Definition BLOCKS : list string := ["norm_in"; "encoder"; "decoder"].

(** The keys [parse_options] accepts: the blocks of the class and
    ["optimizer"], which the tutorial's own test passes. *)
Definition known_key (k : string) : bool :=
  bool_decide (k ∈ BLOCKS) || String.eqb k "optimizer".

(** Modelled from the spec: [BaseCV.parse_options] is not part of the
    sources.  "For each of the three roles, look up an entry in the
    provided configuration mapping; missing entries default to an empty
    configuration"; it "fails with ConfigurationError if a configuration
    entry references an unknown block/option name".  Entries that are
    present are handed on as they are. *)
Definition parse_options (options : option (gmap string value))
  : result (gmap string value) :=
  let options := default ∅ options in
  let options := foldl (λ acc o, setdefault acc o (VDict ∅)) options BLOCKS in
  if bool_decide (map_Forall (λ k _, known_key k = true) options)
  then Ok options
  else Err ConfigurationError.

Section AutoEncoderCV.
Context `{FW : Framework}.

(** The keyword arguments handed through to [BaseCV.__init__]. *)
Record base_kwargs : Type := {
  kw_preprocessing : option (tensor → tensor);
  kw_postprocessing : option (tensor → tensor)
}.

(** The attributes of an instance.  A block that was not built holds
    [None]. *)
Record AutoEncoderCV : Type := {
  in_features : Z;
  out_features : Z;
  preprocessing : option (tensor → tensor);
  postprocessing : option (tensor → tensor);
  loss_fn : option (tensor → tensor → gmap string tensor → scalar);
  norm_in : option Normalization;
  encoder : option FeedForward;
  decoder : option FeedForward;
  training : bool
}.

Definition set_loss_fn f (self : AutoEncoderCV) : AutoEncoderCV :=
  {| in_features := in_features self; out_features := out_features self;
     preprocessing := preprocessing self; postprocessing := postprocessing self;
     loss_fn := Some f; norm_in := norm_in self;
     encoder := encoder self; decoder := decoder self;
     training := training self |}.

Definition set_norm_in n (self : AutoEncoderCV) : AutoEncoderCV :=
  {| in_features := in_features self; out_features := out_features self;
     preprocessing := preprocessing self; postprocessing := postprocessing self;
     loss_fn := loss_fn self; norm_in := Some n;
     encoder := encoder self; decoder := decoder self;
     training := training self |}.

Definition set_encoder e (self : AutoEncoderCV) : AutoEncoderCV :=
  {| in_features := in_features self; out_features := out_features self;
     preprocessing := preprocessing self; postprocessing := postprocessing self;
     loss_fn := loss_fn self; norm_in := norm_in self;
     encoder := Some e; decoder := decoder self;
     training := training self |}.

Definition set_decoder d (self : AutoEncoderCV) : AutoEncoderCV :=
  {| in_features := in_features self; out_features := out_features self;
     preprocessing := preprocessing self; postprocessing := postprocessing self;
     loss_fn := loss_fn self; norm_in := norm_in self;
     encoder := encoder self; decoder := Some d;
     training := training self |}.

(** [self.train(mode)]; [self.eval()] is [train false]. *)
Definition train (mode : bool) (self : AutoEncoderCV) : AutoEncoderCV :=
  {| in_features := in_features self; out_features := out_features self;
     preprocessing := preprocessing self; postprocessing := postprocessing self;
     loss_fn := loss_fn self; norm_in := norm_in self;
     encoder := encoder self; decoder := decoder self;
     training := mode |}.

(** Modelled from the spec: [BaseCV.__init__] is not part of the sources.
    It receives the in/out feature counts and the pass-through keyword
    parameters; every block of [BLOCKS] starts unbound, which is what the
    tests [self.norm_in is not None] of the forward paths rely on.  A
    fresh module is in training mode. *)
Definition BaseCV_init (in_f out_f : Z) (kwargs : base_kwargs) : AutoEncoderCV :=
  {| in_features := in_f; out_features := out_f;
     preprocessing := kw_preprocessing kwargs;
     postprocessing := kw_postprocessing kwargs;
     loss_fn := None; norm_in := None; encoder := None; decoder := None;
     training := true |}.

(** [AutoEncoderCV.__init__(encoder_layers, decoder_layers=None,
    options=None, **kwargs)] *)
Definition __init__ (encoder_layers : list Z) (decoder_layers : option (list Z))
    (options : option (gmap string value)) (kwargs : base_kwargs)
  : result AutoEncoderCV :=
  in_f ← list_getitem encoder_layers 0;
  out_f ← list_getitem encoder_layers (-1);
  let self := BaseCV_init in_f out_f kwargs in
  (* parse and sanitize *)
  options ← parse_options options;
  (* if decoder is not given reverse the encoder *)
  let decoder_layers :=
    match decoder_layers with
    | None => rev encoder_layers
    | Some d => d
    end in
  (* reconstruction (MSE) loss *)
  let self := set_loss_fn MSELoss self in
  (* initialize norm_in *)
  o ← dict_getitem options "norm_in";
  self ← (if negb (is_False o) && negb (is_None o)
          then kw ← unpack_kwargs o;
               n ← Normalization_init (in_features self) kw;
               mret (set_norm_in n self)
          else mret self);
  (* initialize encoder *)
  o ← dict_getitem options "encoder";
  kw ← unpack_kwargs o;
  e ← FeedForward_init encoder_layers kw;
  let self := set_encoder e self in
  (* initialize decoder *)
  o ← dict_getitem options "decoder";
  kw ← unpack_kwargs o;
  d ← FeedForward_init decoder_layers kw;
  let self := set_decoder d self in
  mret self.

(** Calling an attribute that may hold [None]. *)
Definition call {A B} (f : option (A → B)) (x : A) : result B :=
  match f with
  | Some g => Ok (g x)
  | None => Err TypeError
  end.

Definition forward_cv (self : AutoEncoderCV) (x : tensor) : result tensor :=
  x ← (match norm_in self with
       | Some n => Ok (Normalization_call n x)
       | None => Ok x
       end);
  x ← call (FeedForward_call <$> encoder self) x;
  mret x.

(** Modelled from the spec: [BaseCV.forward] is not part of the sources.
    The tutorial describes it next to [forward_cv]: it "is used when
    calling model(input) and for deploying the model, also applies pre
    and post processing operations, if present". *)
Definition forward (self : AutoEncoderCV) (x : tensor) : result tensor :=
  x ← (match preprocessing self with
       | Some pre => Ok (pre x)
       | None => Ok x
       end);
  x ← forward_cv self x;
  x ← (match postprocessing self with
       | Some post => Ok (post x)
       | None => Ok x
       end);
  mret x.

Definition encode_decode (self : AutoEncoderCV) (x : tensor) : result tensor :=
  x ← forward self x;
  x ← call (FeedForward_call <$> decoder self) x;
  x ← (match norm_in self with
       | Some n => Ok (Normalization_inverse n x)
       | None => Ok x
       end);
  mret x.

(** *** The training step, with the metrics sink as state *)

(** One call of [self.log(name, value, on_epoch=...)]. *)
Record log_entry : Type := {
  log_name : string;
  log_value : scalar;
  log_on_epoch : bool
}.

(** A computation that may fail and may append to the metrics sink. *)
Definition step (A : Type) : Type := list log_entry → result A * list log_entry.

#[global] Instance step_ret : MRet step := λ A a sink, (Ok a, sink).
#[global] Instance step_bind : MBind step := λ A B f m sink,
  match m sink with
  | (Ok a, sink') => f a sink'
  | (Err e, sink') => (Err e, sink')
  end.

Definition lift {A} (r : result A) : step A := λ sink, (r, sink).

Definition log (name : string) (v : scalar) (on_epoch : bool) : step unit :=
  λ sink, (Ok tt, sink ++ [{| log_name := name; log_value := v;
                              log_on_epoch := on_epoch |}]).

Definition training_step (self : AutoEncoderCV) (train_batch : gmap string tensor)
    (batch_idx : Z) : step scalar :=
  (* get data *)
  x ← lift (dict_getitem train_batch "data");
  let loss_kwargs : gmap string tensor := ∅ in
  loss_kwargs ← (if dict_contains train_batch "weights"
                 then w ← lift (dict_getitem train_batch "weights");
                      mret (<["weights" := w]> loss_kwargs)
                 else mret loss_kwargs);
  (* forward *)
  x_hat ← lift (encode_decode self x);
  (* reference output: 'target' if any, otherwise the input 'data' *)
  x_ref ← (if dict_contains train_batch "target"
           then lift (dict_getitem train_batch "target")
           else mret x);
  loss ← lift (match loss_fn self with
               | Some f => Ok (f x_hat x_ref loss_kwargs)
               | None => Err AttributeError
               end);
  (* log *)
  let name := if training self then "train" else "valid" in
  _ ← log (name +:+ "_loss") loss true;
  mret loss.

End AutoEncoderCV.

(** ** Reading an [options] argument

    What the constructor finds under a block name once [parse_options] has
    filled in the defaults, and the arguments on which it goes through. *)

Definition block_entry (options : option (gmap string value)) (o : string) : value :=
  default (VDict ∅) (default ∅ options !! o).

Definition is_dict (v : value) : bool :=
  match v with
  | VDict _ => true
  | _ => false
  end.

Definition keys_known (options : option (gmap string value)) : bool :=
  bool_decide (map_Forall (λ k _, known_key k = true) (default ∅ options)).

(** The options bind block names only. *)
Definition only_block_keys (options : option (gmap string value)) : bool :=
  bool_decide (map_Forall (λ k _, k ∈ BLOCKS) (default ∅ options)).

(** Every key is a block name or ["optimizer"], the [norm_in] entry is a
    mapping or one of the two sentinels, the [encoder] and [decoder]
    entries are mappings. *)
Definition options_ok (options : option (gmap string value)) : bool :=
  keys_known options
  && (let v := block_entry options "norm_in" in is_None v || is_False v || is_dict v)
  && is_dict (block_entry options "encoder")
  && is_dict (block_entry options "decoder").

Definition kwargs_of (v : value) : gmap string value :=
  match v with
  | VDict d => d
  | _ => ∅
  end.

Definition is_Ok {A} (r : result A) : bool :=
  match r with
  | Ok _ => true
  | Err _ => false
  end.

Section Outcome.
Context `{FW : Framework}.

(** The normalizer the constructor builds for well-formed options: none
    on a sentinel, [Normalization(in_f, **entry)] on a mapping. *)
Definition build_norm_in (in_f : Z) (options : option (gmap string value))
  : result (option Normalization) :=
  match block_entry options "norm_in" with
  | VDict kw => Some <$> Normalization_init in_f kw
  | _ => Ok None
  end.

Definition build_encoder (encoder_layers : list Z) (options : option (gmap string value))
  : result FeedForward :=
  FeedForward_init encoder_layers (kwargs_of (block_entry options "encoder")).

Definition build_decoder (encoder_layers : list Z) (decoder_layers : option (list Z))
    (options : option (gmap string value)) : result FeedForward :=
  FeedForward_init (default (rev encoder_layers) decoder_layers)
    (kwargs_of (block_entry options "decoder")).

(** The width list is not empty and the sub-module constructors accept
    what the constructor hands them. *)
Definition submodules_ok (encoder_layers : list Z) (decoder_layers : option (list Z))
    (options : option (gmap string value)) : bool :=
  match encoder_layers with
  | [] => false
  | in_f :: _ =>
      is_Ok (build_norm_in in_f options)
      && is_Ok (build_encoder encoder_layers options)
      && is_Ok (build_decoder encoder_layers decoder_layers options)
  end.

(** The instance a construction that goes through leaves behind. *)
Definition constructed (in_f out_f : Z) (kwargs : base_kwargs)
    (n : option Normalization) (e d : FeedForward) : AutoEncoderCV :=
  {| in_features := in_f; out_features := out_f;
     preprocessing := kw_preprocessing kwargs;
     postprocessing := kw_postprocessing kwargs;
     loss_fn := Some MSELoss;
     norm_in := n; encoder := Some e; decoder := Some d;
     training := true |}.

End Outcome.

(** ** A small integer framework to run the class on

    Tensors are rows of integers and a sub-module is the record of the
    arguments it was built with; the normalizer shifts by its feature
    count, a feed-forward network doubles and adds its depth, and the loss
    is the summed squared error, scaled by the weights when given. *)

Record toy_norm : Type := ToyNorm {
  norm_in_features : Z;
  norm_kwargs : gmap string value
}.

Record toy_ff : Type := ToyFF {
  ff_layers : list Z;
  ff_kwargs : gmap string value
}.

Definition sq_err (x y : list Z) : Z :=
  foldr Z.add 0 (zip_with (λ a b, (a - b) * (a - b)) x y).

#[local] Instance toy : Framework := {|
  tensor := list Z;
  scalar := Z;
  Normalization := toy_norm;
  FeedForward := toy_ff;
  Normalization_init in_f kw := Ok (ToyNorm in_f kw);
  FeedForward_init layers kw := Ok (ToyFF layers kw);
  Normalization_call n x := (λ v, v - norm_in_features n) <$> x;
  Normalization_inverse n x := (λ v, v + norm_in_features n) <$> x;
  FeedForward_call f x := (λ v, 2 * v + Z.of_nat (length (ff_layers f))) <$> x;
  MSELoss x y kw :=
    match kw !! "weights" with
    | Some w => foldr Z.add 0 w * sq_err x y
    | None => sq_err x y
    end
|}.

Definition no_kwargs : base_kwargs :=
  {| kw_preprocessing := None; kw_postprocessing := None |}.

Definition toy_layers : list Z := [8; 6; 4; 2].

(** The model the constructor yields on [toy_layers], given the keyword
    arguments and the normalizer. *)
Definition toy_model (kwargs : base_kwargs) (n : option toy_norm) : AutoEncoderCV :=
  constructed 8 2 kwargs n (ToyFF toy_layers ∅) (ToyFF [2; 4; 6; 8] ∅).

(** A batch with a target, and one that lacks ["data"]. *)
Definition toy_batch : gmap string (list Z) :=
  {[ "data" := [1; 2; 3]; "target" := [0; 0; 0] ]}.

Definition bad_batch : gmap string (list Z) :=
  {[ "target" := [0; 0; 0]; "weights" := [1; 1; 1] ]}.

(** Keyword arguments attaching a pre-processing, resp. a post-processing
    module that adds one to every entry. *)
Definition pre_kwargs : base_kwargs :=
  {| kw_preprocessing := Some (fmap Z.succ); kw_postprocessing := None |}.

Definition post_kwargs : base_kwargs :=
  {| kw_preprocessing := None; kw_postprocessing := Some (fmap Z.succ) |}.

(** [toy_batch] with a key the training step has no use for. *)
Definition labelled_batch : gmap string (list Z) :=
  <[ "labels" := [7; 7; 7] ]> toy_batch.

(** ** Lemmas on the Python primitives *)

Lemma Ok_inj {A} (x y : A) : Ok x = Ok y → x = y.
Proof. congruence. Qed.

Lemma list_getitem_nil {A} (i : Z) : list_getitem (@nil A) i = Err IndexError.
Proof.
  unfold list_getitem. cbv zeta. change (Z.of_nat (length (@nil A))) with 0.
  destruct (i <? 0) eqn:Hi.
  - replace (i + 0) with i by lia. by rewrite Hi.
  - rewrite Hi. apply Z.ltb_ge in Hi. by assert ((0 <=? i) = true) as -> by (apply Z.leb_le; lia).
Qed.

Lemma list_getitem_first {A} (a : A) (l : list A) : list_getitem (a :: l) 0 = Ok a.
Proof.
  unfold list_getitem. cbv zeta. change (0 <? 0) with false. cbv iota.
  assert ((Z.of_nat (length (a :: l)) <=? 0) = false) as ->
    by (apply Z.leb_gt; rewrite length_cons; lia).
  reflexivity.
Qed.

Lemma list_getitem_last {A} (l : list A) (z : A) : list_getitem (l ++ [z]) (-1) = Ok z.
Proof.
  unfold list_getitem. cbv zeta. change (-1 <? 0) with true. cbv iota.
  rewrite length_app. simpl length.
  replace (-1 + Z.of_nat (length l + 1)) with (Z.of_nat (length l)) by lia.
  assert ((Z.of_nat (length l) <? 0) = false) as -> by (apply Z.ltb_ge; lia).
  assert ((Z.of_nat (length l + 1) <=? Z.of_nat (length l)) = false) as ->
    by (apply Z.leb_gt; lia).
  simpl. rewrite Nat2Z.id.
  by rewrite lookup_app_r, Nat.sub_diag by lia.
Qed.

Lemma list_getitem_nonempty {A} (l : list A) :
  l ≠ [] → ∃ a z, list_getitem l 0 = Ok a ∧ list_getitem l (-1) = Ok z.
Proof.
  intros Hl. destruct l as [|a l]; [done|].
  exists a. destruct (exists_last (l:=a :: l)) as (l' & z & Heq); [done|].
  exists z. split; [apply list_getitem_first|].
  rewrite Heq. apply list_getitem_last.
Qed.

Lemma lookup_setdefault {V} (d : gmap string V) (k k' : string) (v : V) :
  setdefault d k v !! k' =
  if decide (k = k') then Some (default v (d !! k)) else d !! k'.
Proof.
  unfold setdefault. destruct (d !! k) eqn:Hk; case_decide; simplify_map_eq; done.
Qed.

(** ** Lemmas on [parse_options] *)

Lemma lookup_with_defaults (m : gmap string value) (k : string) :
  foldl (λ acc o, setdefault acc o (VDict ∅)) m BLOCKS !! k =
  if bool_decide (k ∈ BLOCKS) then Some (default (VDict ∅) (m !! k)) else m !! k.
Proof.
  case_bool_decide as Hk; unfold BLOCKS in *; cbn [foldl].
  - rewrite !elem_of_cons, elem_of_nil in Hk.
    destruct Hk as [->|[->|[->|[]]]];
      repeat (rewrite lookup_setdefault; case_decide; try done).
  - rewrite !elem_of_cons, elem_of_nil in Hk.
    repeat (rewrite lookup_setdefault; case_decide; [naive_solver|]). done.
Qed.

Lemma block_known (k : string) : k ∈ BLOCKS → known_key k = true.
Proof.
  intros Hk. unfold known_key. by rewrite bool_decide_eq_true_2.
Qed.

Lemma parse_options_eq (options : option (gmap string value)) :
  parse_options options =
  if keys_known options
  then Ok (foldl (λ acc o, setdefault acc o (VDict ∅)) (default ∅ options) BLOCKS)
  else Err ConfigurationError.
Proof.
  unfold parse_options, keys_known. cbv zeta.
  set (m := default ∅ options).
  erewrite bool_decide_ext; [reflexivity|].
  unfold map_Forall. split; intros HF k v Hk.
  - destruct (decide (k ∈ BLOCKS)) as [Hb|Hb]; [by apply block_known|].
    apply (HF k v). by rewrite lookup_with_defaults, bool_decide_eq_false_2.
  - destruct (decide (k ∈ BLOCKS)) as [Hb|Hb]; [by apply block_known|].
    rewrite lookup_with_defaults, bool_decide_eq_false_2 in Hk by done.
    by apply (HF k v).
Qed.

Lemma parse_options_getitem options o (b : string) :
  parse_options options = Ok o → b ∈ BLOCKS →
  dict_getitem o b = Ok (block_entry options b).
Proof.
  rewrite parse_options_eq. destruct (keys_known options); [|done].
  intros Heq Hb. apply Ok_inj in Heq. subst o. unfold dict_getitem, block_entry.
  by rewrite lookup_with_defaults, bool_decide_eq_true_2.
Qed.

(** ** What a construction yields *)

Section Construction.
Context `{FW : Framework}.

Lemma parse_options_Ok options o : parse_options options = Ok o → keys_known options = true.
Proof. rewrite parse_options_eq. by destruct (keys_known options). Qed.

Lemma parse_options_Err options e : parse_options options = Err e → keys_known options = false.
Proof. rewrite parse_options_eq. by destruct (keys_known options). Qed.

(** Once both ends of the width list are read: the constructor goes
    through exactly when the options are well formed and the three
    sub-module constructors accept their arguments. *)
Lemma init_Ok_at enc dec opts kw a z self :
  list_getitem enc 0 = Ok a → list_getitem enc (-1) = Ok z →
  __init__ enc dec opts kw = Ok self ↔
  ∃ n e d,
    options_ok opts = true ∧
    build_norm_in a opts = Ok n ∧
    build_encoder enc opts = Ok e ∧
    build_decoder enc dec opts = Ok d ∧
    self = constructed a z kw n e d.
Proof.
  intros Ha Hz.
  unfold __init__, options_ok, build_norm_in, build_encoder, build_decoder.
  rewrite Ha, Hz. cbn [mbind result_bind].
  destruct (parse_options opts) as [o|e2] eqn:Hp; cbn [mbind result_bind].
  - rewrite (parse_options_Ok _ _ Hp).
    rewrite !(parse_options_getitem _ _ _ Hp) by (unfold BLOCKS; set_solver).
    cbn [mbind result_bind]. unfold constructed.
    replace (match dec with Some d => d | None => rev enc end)
      with (default (rev enc) dec) by (by destruct dec).
    destruct (block_entry opts "norm_in") as [|[]| | |dn];
      destruct (block_entry opts "encoder") as [|[]| | |de];
      destruct (block_entry opts "decoder") as [|[]| | |dd];
      cbn;
      repeat (match goal with
              | |- context [Normalization_init ?i ?k] =>
                  destruct (Normalization_init i k) as [?n|?] eqn:?
              | |- context [FeedForward_init ?l ?k] =>
                  destruct (FeedForward_init l k) as [?f|?] eqn:?
              end; cbn);
      (split; [intros Heq;
               first [discriminate Heq
                     | apply Ok_inj in Heq; subst self;
                       do 3 eexists; repeat split; reflexivity]
             | naive_solver]).
  - rewrite (parse_options_Err _ _ Hp). naive_solver.
Qed.

(** The constructor goes through exactly when both ends of the width list
    can be read, the options are well formed and the three sub-module
    constructors accept their arguments; it then yields [constructed]. *)
Lemma init_Ok_iff enc dec opts kw self :
  __init__ enc dec opts kw = Ok self ↔
  ∃ a z n e d,
    list_getitem enc 0 = Ok a ∧ list_getitem enc (-1) = Ok z ∧
    options_ok opts = true ∧
    build_norm_in a opts = Ok n ∧
    build_encoder enc opts = Ok e ∧
    build_decoder enc dec opts = Ok d ∧
    self = constructed a z kw n e d.
Proof.
  split.
  - intros Hinit.
    assert (∃ a, list_getitem enc 0 = Ok a) as [a Ha].
    { destruct (list_getitem enc 0) eqn:E; [by eauto|].
      unfold __init__ in Hinit. by rewrite E in Hinit. }
    assert (∃ z, list_getitem enc (-1) = Ok z) as [z Hz].
    { destruct (list_getitem enc (-1)) eqn:E; [by eauto|].
      unfold __init__ in Hinit. by rewrite Ha, E in Hinit. }
    apply (init_Ok_at _ _ _ _ a z) in Hinit; [|done..].
    destruct Hinit as (n & e & d & Hrest).
    exists a, z, n, e, d. by repeat (split; [done|]).
  - intros (a & z & n & e & d & Ha & Hz & ?).
    apply (init_Ok_at _ _ _ _ a z); [done..|]. by exists n, e, d.
Qed.

Lemma init_succeeds enc dec opts kw :
  options_ok opts = true → submodules_ok enc dec opts = true →
  ∃ self, __init__ enc dec opts kw = Ok self.
Proof.
  intros Hok Hsub. unfold submodules_ok in Hsub.
  destruct enc as [|a enc']; [done|].
  destruct (list_getitem_nonempty (a :: enc')) as (a' & z & Ha & Hz); [done|].
  rewrite list_getitem_first in Ha. apply Ok_inj in Ha as <-.
  destruct (build_norm_in a opts) as [n|] eqn:Hn; [|done].
  destruct (build_encoder (a :: enc') opts) as [e|] eqn:He; [|done].
  destruct (build_decoder (a :: enc') dec opts) as [d|] eqn:Hd; [|done].
  exists (constructed a z kw n e d). apply init_Ok_iff.
  exists a, z, n, e, d. rewrite list_getitem_first. done.
Qed.

(** A constructed model always has its encoder and decoder. *)
Lemma init_blocks enc dec opts kw self :
  __init__ enc dec opts kw = Ok self →
  ∃ e d, encoder self = Some e ∧ decoder self = Some d ∧
         build_encoder enc opts = Ok e ∧ build_decoder enc dec opts = Ok d ∧
         loss_fn self = Some MSELoss ∧
         preprocessing self = kw_preprocessing kw ∧
         postprocessing self = kw_postprocessing kw.
Proof.
  intros (a & z & n & e & d & _ & _ & _ & _ & He & Hd & ->)%init_Ok_iff.
  cbn. eauto 10.
Qed.

(** The normalizer of a constructed model, by the entry bound to
    [norm_in]. *)
Lemma init_norm_in enc dec opts kw self :
  __init__ enc dec opts kw = Ok self →
  match block_entry opts "norm_in" with
  | VNone | VBool false => norm_in self = None
  | VDict kwn => ∃ n, Normalization_init (in_features self) kwn = Ok n ∧
                      norm_in self = Some n
  | _ => False
  end.
Proof.
  intros (a & z & n & e & d & _ & _ & Hok & Hn & _ & _ & ->)%init_Ok_iff.
  unfold options_ok in Hok. unfold build_norm_in in Hn. cbn.
  apply andb_prop in Hok as [[[_ Hv]%andb_prop _]%andb_prop _]. cbn in Hv.
  destruct (block_entry opts "norm_in") as [|[]| | |kwn]; try done.
  - by apply Ok_inj in Hn.
  - by apply Ok_inj in Hn.
  - destruct (Normalization_init a kwn) as [n'|]; [|done].
    apply Ok_inj in Hn as <-. eauto.
Qed.

End Construction.

(** ** The forward paths and the training step in closed form *)

Section ForwardPaths.
Context `{FW : Framework}.

(** The two forward paths in closed form, for a model whose encoder and
    decoder are bound. *)
Lemma forward_cv_eq self e x :
  encoder self = Some e →
  forward_cv self x =
  Ok (FeedForward_call e (from_option (λ n, Normalization_call n x) x (norm_in self))).
Proof.
  intros He. unfold forward_cv. rewrite He. by destruct (norm_in self).
Qed.

Lemma encode_decode_eq self e d x :
  encoder self = Some e → decoder self = Some d →
  encode_decode self x =
  let x0 := from_option (λ pre, pre x) x (preprocessing self) in
  let x1 := FeedForward_call e (from_option (λ n, Normalization_call n x0) x0 (norm_in self)) in
  let x2 := from_option (λ post, post x1) x1 (postprocessing self) in
  let x3 := FeedForward_call d x2 in
  Ok (from_option (λ n, Normalization_inverse n x3) x3 (norm_in self)).
Proof.
  intros He Hd. unfold encode_decode, forward.
  destruct (preprocessing self); cbn [mbind result_bind from_option];
    rewrite (forward_cv_eq _ e) by done;
    destruct (postprocessing self); cbn [mbind result_bind from_option];
    rewrite Hd; by destruct (norm_in self).
Qed.

Lemma train_blocks mode self :
  encoder (train mode self) = encoder self ∧ decoder (train mode self) = decoder self ∧
  norm_in (train mode self) = norm_in self ∧
  preprocessing (train mode self) = preprocessing self ∧
  postprocessing (train mode self) = postprocessing self ∧
  loss_fn (train mode self) = loss_fn self ∧ training (train mode self) = mode.
Proof. done. Qed.

(** The training step in closed form on a batch that has ["data"]. *)
Lemma training_step_eq self (train_batch : gmap string tensor) idx sink x x_hat f :
  train_batch !! "data" = Some x →
  encode_decode self x = Ok x_hat →
  loss_fn self = Some f →
  let loss := f x_hat (default x (train_batch !! "target"))
                (if train_batch !! "weights" is Some w then {["weights" := w]} else ∅) in
  training_step self train_batch idx sink =
  (Ok loss, sink ++ [{| log_name := if training self then "train_loss" else "valid_loss";
                        log_value := loss; log_on_epoch := true |}]).
Proof.
  intros Hx Hhat Hf.
  unfold training_step, dict_contains, dict_getitem, lift, log, mbind, step_bind.
  rewrite Hx.
  destruct (train_batch !! "weights"), (train_batch !! "target");
    cbn; rewrite Hhat, Hf; by destruct (training self).
Qed.

End ForwardPaths.

(** ** The properties of the class *)

Section Claims.
Context `{FW : Framework}.

(** C1. For every encoder width list of length at least 2, when no
    decoder widths are given at construction, the decoder of any model
    the constructor yields is the feed-forward network built on the
    reversed encoder widths; and the constructor does yield a model
    whenever the options are well formed and the sub-module constructors
    accept their arguments. *)
Theorem default_decoder_is_reversed_encoder (enc : list Z) opts kw :
  (2 ≤ length enc)%nat →
  (∀ self, __init__ enc None opts kw = Ok self →
     ∃ d, decoder self = Some d ∧
          FeedForward_init (rev enc) (kwargs_of (block_entry opts "decoder")) = Ok d) ∧
  (options_ok opts = true → submodules_ok enc None opts = true →
   ∃ self, __init__ enc None opts kw = Ok self).
Proof.
  intros Hlen. split.
  - intros self (e & d & _ & Hd & _ & Hbd & _)%init_blocks.
    exists d. split; [exact Hd|exact Hbd].
  - apply init_succeeds.
Qed.

(** C2. For every training batch with ["data"], on a constructed model
    in either mode, the reconstruction is computed and the loss of the
    training step is the loss function applied to it and to the batch's
    ["target"] when that key is present, and to the batch's ["data"]
    itself when ["target"] is absent. *)
Theorem reference_is_target_else_data enc dec opts kw self mode
    (train_batch : gmap string tensor) (idx : Z) sink (x : tensor) :
  __init__ enc dec opts kw = Ok self →
  train_batch !! "data" = Some x →
  ∃ x_hat, encode_decode (train mode self) x = Ok x_hat ∧
    let loss_kwargs : gmap string tensor :=
      if train_batch !! "weights" is Some w then {["weights" := w]} else ∅ in
    (∀ t, train_batch !! "target" = Some t →
          (training_step (train mode self) train_batch idx sink).1
          = Ok (MSELoss x_hat t loss_kwargs)) ∧
    (train_batch !! "target" = None →
          (training_step (train mode self) train_batch idx sink).1
          = Ok (MSELoss x_hat x loss_kwargs)).
Proof.
  intros (e & d & He & Hd & _ & _ & Hf & _)%init_blocks Hx.
  eexists. split; [by apply (encode_decode_eq _ e d)|].
  cbv zeta. split.
  - intros t Ht.
    erewrite training_step_eq; [|done|by apply (encode_decode_eq _ e d)|done].
    cbn. by rewrite Ht.
  - intros Ht.
    erewrite training_step_eq; [|done|by apply (encode_decode_eq _ e d)|done].
    cbn. by rewrite Ht.
Qed.

(** C3, as amended. On the empty encoder width list the constructor
    fails with an index error, raised when the first width is read and
    whatever the other arguments are.  The constructor has no check of
    its own on the number of widths: on a one-entry list [[n]] with well
    formed options it yields a model whenever the sub-module constructors
    accept their arguments, with [n] in and out features, the encoder
    built on [[n]] and the decoder built on the given widths, or on [[n]]
    again when none are given. *)
Theorem short_encoder_lists dec opts kw :
  __init__ [] dec opts kw = Err IndexError ∧
  (∀ n, options_ok opts = true → submodules_ok [n] dec opts = true →
        ∃ self e d,
          __init__ [n] dec opts kw = Ok self ∧
          in_features self = n ∧ out_features self = n ∧
          encoder self = Some e ∧
          FeedForward_init [n] (kwargs_of (block_entry opts "encoder")) = Ok e ∧
          decoder self = Some d ∧
          FeedForward_init (default [n] dec) (kwargs_of (block_entry opts "decoder")) = Ok d).
Proof.
  split.
  - unfold __init__. by rewrite list_getitem_nil.
  - intros n Hok Hsub.
    destruct (init_succeeds [n] dec opts kw Hok Hsub) as [self Hinit].
    pose proof Hinit as (a & z & nn & e & d & Ha & Hz & _ & _ & He & Hd & ->)%init_Ok_iff.
    rewrite list_getitem_first in Ha. apply Ok_inj in Ha as <-.
    change [n] with ([] ++ [n]) in Hz at 1. rewrite list_getitem_last in Hz.
    apply Ok_inj in Hz as <-.
    exists (constructed n n kw nn e d), e, d. by repeat (split; [done|]).
Qed.


(** C6. For every model constructed with the [norm_in] entry [None] or
    [False] and every input, in either mode, [forward_cv] returns what
    the encoder alone returns on the raw input. *)
Theorem project_without_normalizer enc dec (options : gmap string value) kw self :
  __init__ enc dec (Some options) kw = Ok self →
  options !! "norm_in" = Some VNone ∨ options !! "norm_in" = Some (VBool false) →
  norm_in self = None ∧
  ∃ e, encoder self = Some e ∧
       ∀ mode x, forward_cv (train mode self) x = Ok (FeedForward_call e x).
Proof.
  intros Hinit Hv.
  pose proof (init_norm_in _ _ _ _ _ Hinit) as Hnorm.
  destruct (init_blocks _ _ _ _ _ Hinit) as (e & d & He & _).
  assert (norm_in self = None) as Hn.
  { unfold block_entry in Hnorm. cbn in Hnorm.
    by destruct Hv as [Hv | Hv]; rewrite Hv in Hnorm. }
  split; [done|]. exists e. split; [done|]. intros mode x.
  rewrite (forward_cv_eq _ e) by done. cbn. by rewrite Hn.
Qed.

(** C7, as amended. For every constructed model with the normalizer
    present and no pre- or post-processing module attached, and every
    input [x], in either mode, [encode_decode] returns
    inverse-normalizer(decoder(encoder(normalizer(x)))). *)
Theorem reconstruct_with_normalizer enc dec opts kw self n :
  __init__ enc dec opts kw = Ok self →
  kw_preprocessing kw = None → kw_postprocessing kw = None →
  norm_in self = Some n →
  ∃ e d, encoder self = Some e ∧ decoder self = Some d ∧
    ∀ mode x, encode_decode (train mode self) x =
              Ok (Normalization_inverse n
                    (FeedForward_call d (FeedForward_call e (Normalization_call n x)))).
Proof.
  intros Hinit Hpre Hpost Hn.
  destruct (init_blocks _ _ _ _ _ Hinit) as (e & d & He & Hd & _ & _ & _ & Hp & Hq).
  exists e, d. split; [done|]. split; [done|]. intros mode x.
  rewrite (encode_decode_eq _ e d) by done. cbn.
  by rewrite Hp, Hq, Hpre, Hpost, Hn.
Qed.

(** C8. For every batch without the key ["data"], whatever the model
    and its sub-modules, the training step fails with the key error for
    ["data"] and leaves the metrics sink as it was. *)
Theorem missing_data_raises_KeyError self (train_batch : gmap string tensor)
    (idx : Z) sink :
  train_batch !! "data" = None →
  training_step self train_batch idx sink = (Err (KeyError "data"), sink).
Proof.
  intros Hx. unfold training_step, dict_getitem, lift, mbind, step_bind.
  by rewrite Hx.
Qed.

(** C9. For every batch with ["data"], on a constructed model, the
    training step returns a loss and appends exactly one entry to the
    metrics sink, named ["train_loss"] in training mode and
    ["valid_loss"] in evaluation mode, whose value is the returned
    loss. *)
Theorem training_step_logs_once enc dec opts kw self mode
    (train_batch : gmap string tensor) (idx : Z) sink (x : tensor) :
  __init__ enc dec opts kw = Ok self →
  train_batch !! "data" = Some x →
  ∃ loss, training_step (train mode self) train_batch idx sink =
          (Ok loss, sink ++ [{| log_name := if mode then "train_loss" else "valid_loss";
                                log_value := loss; log_on_epoch := true |}]).
Proof.
  intros (e & d & He & Hd & _ & _ & Hf & _)%init_blocks Hx.
  eexists.
  erewrite training_step_eq; [|done|by apply (encode_decode_eq _ e d)|done].
  reflexivity.
Qed.

(** C10, as amended. For every model constructed with the [norm_in]
    entry [None] or [False] and no pre- or post-processing module
    attached, and every input [x], in either mode, [encode_decode]
    returns decoder(encoder(x)), with no inverse normalization. *)
Theorem reconstruct_without_normalizer enc dec (options : gmap string value) kw self :
  __init__ enc dec (Some options) kw = Ok self →
  kw_preprocessing kw = None → kw_postprocessing kw = None →
  options !! "norm_in" = Some VNone ∨ options !! "norm_in" = Some (VBool false) →
  norm_in self = None ∧
  ∃ e d, encoder self = Some e ∧ decoder self = Some d ∧
    ∀ mode x, encode_decode (train mode self) x =
              Ok (FeedForward_call d (FeedForward_call e x)).
Proof.
  intros Hinit Hpre Hpost Hv.
  pose proof (init_norm_in _ _ _ _ _ Hinit) as Hnorm.
  destruct (init_blocks _ _ _ _ _ Hinit) as (e & d & He & Hd & _ & _ & _ & Hp & Hq).
  assert (norm_in self = None) as Hn.
  { unfold block_entry in Hnorm. cbn in Hnorm.
    by destruct Hv as [Hv | Hv]; rewrite Hv in Hnorm. }
  split; [done|]. exists e, d. split; [done|]. split; [done|]. intros mode x.
  rewrite (encode_decode_eq _ e d) by done. cbn.
  by rewrite Hp, Hq, Hpre, Hpost, Hn.
Qed.

End Claims.

(** ** The properties at concrete inputs *)

Lemma default_decoder_is_reversed_encoder_witness :
  (2 ≤ length toy_layers)%nat ∧
  options_ok None = true ∧ submodules_ok toy_layers None None = true ∧
  ∃ self d, __init__ toy_layers None None no_kwargs = Ok self ∧
            decoder self = Some d ∧ ff_layers d = [2; 4; 6; 8].
Proof.
  assert (2 ≤ length toy_layers)%nat as Hlen by (simpl; lia).
  split; [exact Hlen|]. do 2 (split; [reflexivity|]).
  destruct (default_decoder_is_reversed_encoder toy_layers None no_kwargs Hlen)
    as [Hrev Hex].
  destruct (Hex eq_refl eq_refl) as [self Hself].
  destruct (Hrev self Hself) as (d & Hd & Hbuilt).
  exists self, d. split; [exact Hself|]. split; [exact Hd|].
  apply Ok_inj in Hbuilt. by rewrite <- Hbuilt.
Defined.

Lemma reference_is_target_else_data_witness :
  let self := toy_model no_kwargs (Some (ToyNorm 8 ∅)) in
  __init__ toy_layers None None no_kwargs = Ok self ∧
  toy_batch !! "data" = Some [1; 2; 3] ∧
  ∃ x_hat, encode_decode self [1; 2; 3] = Ok x_hat ∧
           (training_step self toy_batch 0 []).1 = Ok (MSELoss x_hat [0; 0; 0] ∅).
Proof.
  intros self.
  assert (__init__ toy_layers None None no_kwargs = Ok self) as Hinit by reflexivity.
  assert (toy_batch !! "data" = Some [1; 2; 3]) as Hx by reflexivity.
  split; [exact Hinit|]. split; [exact Hx|].
  destruct (reference_is_target_else_data toy_layers None None no_kwargs self true
              toy_batch 0 [] [1; 2; 3] Hinit Hx) as (x_hat & Hhat & Ht & _).
  exists x_hat. split; [exact Hhat|]. exact (Ht [0; 0; 0] eq_refl).
Defined.

(** C3 fails as stated: on the empty width list the constructor raises an
    index error, which is not the configuration error. *)
Lemma empty_encoder_list_raises_IndexError :
  (length (@nil Z) < 2)%nat ∧
  __init__ [] None None no_kwargs = Err IndexError ∧
  __init__ [] None None no_kwargs ≠ Err ConfigurationError.
Proof.
  split; [simpl; lia|]. split; [reflexivity|discriminate].
Qed.

Lemma short_encoder_lists_witness :
  __init__ [] None None no_kwargs = Err IndexError ∧
  options_ok None = true ∧ submodules_ok [8] None None = true ∧
  ∃ self, __init__ [8] None None no_kwargs = Ok self ∧
          in_features self = 8 ∧ out_features self = 8 ∧
          encoder self = Some (ToyFF [8] ∅) ∧ decoder self = Some (ToyFF [8] ∅).
Proof.
  destruct (short_encoder_lists None None no_kwargs) as [Hnil Hone].
  split; [exact Hnil|]. do 2 (split; [reflexivity|]).
  destruct (Hone 8 eq_refl eq_refl) as (self & e & d & Hinit & Hin & Hout & He & Hbe & Hd & Hbd).
  exists self. do 3 (split; [assumption|]).
  apply Ok_inj in Hbe. apply Ok_inj in Hbd. subst e d. by split.
Defined.



(** C5. The defect at the failing input: with the [encoder] entry set to
    [None] the constructor does not turn the encoder off, it raises a type
    error and yields no model. *)
Lemma disabled_encoder_raises_TypeError :
  let options : gmap string value := {[ "encoder" := VNone ]} in
  options !! "encoder" = Some VNone ∧
  __init__ toy_layers None (Some options) no_kwargs = Err TypeError.
Proof.
  split; reflexivity.
Qed.

Lemma project_without_normalizer_witness :
  let options : gmap string value := {[ "norm_in" := VBool false ]} in
  let self := toy_model no_kwargs None in
  __init__ toy_layers None (Some options) no_kwargs = Ok self ∧
  options !! "norm_in" = Some (VBool false) ∧
  forward_cv (train false self) [1; 2; 3] = Ok (FeedForward_call (ToyFF toy_layers ∅) [1; 2; 3]).
Proof.
  intros options self.
  assert (__init__ toy_layers None (Some options) no_kwargs = Ok self) as Hinit
    by reflexivity.
  split; [exact Hinit|]. split; [reflexivity|].
  destruct (project_without_normalizer toy_layers None options no_kwargs self Hinit
              (or_intror eq_refl)) as (_ & e & He & Hfw).
  injection He as <-. exact (Hfw false [1; 2; 3]).
Defined.

(** C7 fails as stated: with a pre-processing module attached the
    reconstruction is not the four-stage pipeline on the input. *)
Lemma preprocessing_enters_reconstruction :
  ∃ self n e d,
    __init__ toy_layers None None pre_kwargs = Ok self ∧
    norm_in self = Some n ∧ encoder self = Some e ∧ decoder self = Some d ∧
    encode_decode self [1; 2; 3] = Ok [-4; 0; 4] ∧
    encode_decode self [1; 2; 3] ≠
    Ok (Normalization_inverse n
          (FeedForward_call d (FeedForward_call e (Normalization_call n [1; 2; 3])))).
Proof.
  exists (toy_model pre_kwargs (Some (ToyNorm 8 ∅))),
    (ToyNorm 8 ∅), (ToyFF toy_layers ∅), (ToyFF [2; 4; 6; 8] ∅).
  do 5 (split; [reflexivity|]).
  intros Heq. vm_compute in Heq. discriminate Heq.
Qed.

Lemma reconstruct_with_normalizer_witness :
  let self := toy_model no_kwargs (Some (ToyNorm 8 ∅)) in
  __init__ toy_layers None None no_kwargs = Ok self ∧
  kw_preprocessing no_kwargs = None ∧ kw_postprocessing no_kwargs = None ∧
  norm_in self = Some (ToyNorm 8 ∅) ∧
  encode_decode self [1; 2; 3] = Ok [-8; -4; 0].
Proof.
  intros self.
  assert (__init__ toy_layers None None no_kwargs = Ok self) as Hinit by reflexivity.
  assert (norm_in self = Some (ToyNorm 8 ∅)) as Hn by reflexivity.
  split; [exact Hinit|]. do 3 (split; [reflexivity|]).
  destruct (reconstruct_with_normalizer toy_layers None None no_kwargs self
              (ToyNorm 8 ∅) Hinit eq_refl eq_refl Hn)
    as (e & d & He & Hd & Hrec).
  injection He as <-. injection Hd as <-. exact (Hrec true [1; 2; 3]).
Defined.

Lemma missing_data_raises_KeyError_witness :
  let self := toy_model no_kwargs (Some (ToyNorm 8 ∅)) in
  bad_batch !! "data" = None ∧
  training_step self bad_batch 0 [] = (Err (KeyError "data"), []).
Proof.
  intros self.
  assert (bad_batch !! "data" = None) as Hx by reflexivity.
  split; [exact Hx|].
  exact (missing_data_raises_KeyError self bad_batch 0 [] Hx).
Defined.

Lemma training_step_logs_once_witness :
  let self := toy_model no_kwargs (Some (ToyNorm 8 ∅)) in
  __init__ toy_layers None None no_kwargs = Ok self ∧
  toy_batch !! "data" = Some [1; 2; 3] ∧
  ∃ loss, training_step (train false self) toy_batch 0 [] =
          (Ok loss, [{| log_name := "valid_loss"; log_value := loss;
                        log_on_epoch := true |}]).
Proof.
  intros self.
  assert (__init__ toy_layers None None no_kwargs = Ok self) as Hinit by reflexivity.
  assert (toy_batch !! "data" = Some [1; 2; 3]) as Hx by reflexivity.
  split; [exact Hinit|]. split; [exact Hx|].
  exact (training_step_logs_once toy_layers None None no_kwargs self false
           toy_batch 0 [] [1; 2; 3] Hinit Hx).
Defined.

(** C10 fails as stated: with the normalizer disabled and a
    post-processing module attached, the reconstruction is not
    decoder(encoder(x)). *)
Lemma postprocessing_enters_reconstruction :
  let options : gmap string value := {[ "norm_in" := VNone ]} in
  ∃ self e d,
    __init__ toy_layers None (Some options) post_kwargs = Ok self ∧
    norm_in self = None ∧ encoder self = Some e ∧ decoder self = Some d ∧
    encode_decode self [1; 2; 3] = Ok [18; 22; 26] ∧
    encode_decode self [1; 2; 3] ≠ Ok (FeedForward_call d (FeedForward_call e [1; 2; 3])).
Proof.
  intros options.
  exists (toy_model post_kwargs None), (ToyFF toy_layers ∅), (ToyFF [2; 4; 6; 8] ∅).
  do 5 (split; [reflexivity|]).
  intros Heq. vm_compute in Heq. discriminate Heq.
Qed.

Lemma reconstruct_without_normalizer_witness :
  let options : gmap string value := {[ "norm_in" := VNone ]} in
  let self := toy_model no_kwargs None in
  __init__ toy_layers None (Some options) no_kwargs = Ok self ∧
  kw_preprocessing no_kwargs = None ∧ kw_postprocessing no_kwargs = None ∧
  options !! "norm_in" = Some VNone ∧
  norm_in self = None ∧
  encode_decode self [1; 2; 3] = Ok [16; 20; 24].
Proof.
  intros options self.
  assert (__init__ toy_layers None (Some options) no_kwargs = Ok self) as Hinit
    by reflexivity.
  split; [exact Hinit|]. do 3 (split; [reflexivity|]).
  destruct (reconstruct_without_normalizer toy_layers None options no_kwargs self
              Hinit eq_refl eq_refl (or_introl eq_refl))
    as (Hn & e & d & He & Hd & Hrec).
  split; [exact Hn|].
  injection He as <-. injection Hd as <-. exact (Hrec true [1; 2; 3]).
Defined.

(** ** Further properties of the constructor *)

Lemma list_getitem_0_head {A} (l : list A) (a : A) :
  list_getitem l 0 = Ok a → head l = Some a.
Proof.
  destruct l as [|b l]; [by rewrite list_getitem_nil|].
  rewrite list_getitem_first. by intros ->%Ok_inj.
Qed.

Lemma list_getitem_m1_last {A} (l : list A) (z : A) :
  list_getitem l (-1) = Ok z → last l = Some z.
Proof.
  destruct l as [|b l]; [by rewrite list_getitem_nil|].
  destruct (exists_last (l:=b :: l)) as (l' & z' & ->); [done|].
  rewrite list_getitem_last, last_snoc. by intros ->%Ok_inj.
Qed.

Lemma head_rev {A} (l : list A) : head (rev l) = last l.
Proof.
  destruct l as [|b l]; [done|].
  destruct (exists_last (l:=b :: l)) as (l' & z & ->); [done|].
  by rewrite rev_unit, last_snoc.
Qed.

Lemma last_rev {A} (l : list A) : last (rev l) = head l.
Proof.
  destruct l as [|b l]; [done|]. simpl. by rewrite last_snoc.
Qed.

Section MoreOnConstruction.
Context `{FW : Framework}.

(** Decoder widths given at construction are used as they are: the
    decoder of any model the constructor yields is the feed-forward
    network built on them, not on the reversed encoder widths.  The test
    is [decoder_layers is None], so the empty list is kept too. *)
Theorem explicit_decoder_layers_are_kept enc (decoder_layers : list Z) opts kw :
  (∀ self, __init__ enc (Some decoder_layers) opts kw = Ok self →
     ∃ d, decoder self = Some d ∧
          FeedForward_init decoder_layers (kwargs_of (block_entry opts "decoder")) = Ok d) ∧
  (options_ok opts = true → submodules_ok enc (Some decoder_layers) opts = true →
   ∃ self, __init__ enc (Some decoder_layers) opts kw = Ok self).
Proof.
  split; [|apply init_succeeds].
  intros self (e & d & _ & Hd & _ & Hbd & _)%init_blocks.
  exists d. split; [exact Hd|exact Hbd].
Qed.

(** The in and out feature counts of a constructed model are the first
    and the last encoder width, and a normalizer, when there is one, is
    the one built on the first encoder width with the [norm_in] entry as
    keyword options. *)
Theorem features_are_the_end_widths enc dec opts kw self :
  __init__ enc dec opts kw = Ok self →
  head enc = Some (in_features self) ∧ last enc = Some (out_features self) ∧
  ∀ n, norm_in self = Some n →
       ∃ a kwn, head enc = Some a ∧ block_entry opts "norm_in" = VDict kwn ∧
                Normalization_init a kwn = Ok n.
Proof.
  intros Hinit. pose proof (init_norm_in _ _ _ _ _ Hinit) as Hnorm.
  apply init_Ok_iff in Hinit as (a & z & n0 & e & d & Ha & Hz & _ & _ & _ & _ & ->).
  cbn in *. apply list_getitem_0_head in Ha. apply list_getitem_m1_last in Hz.
  split; [done|]. split; [done|]. intros n ->.
  destruct (block_entry opts "norm_in") as [|[]| | |kwn]; try done.
  destruct Hnorm as (n' & Hn' & [= <-]). by exists a, kwn.
Qed.

(** With the default decoder widths the decoder is built on a list that
    starts at the out feature count of the model and ends at its in
    feature count: it maps the latent space back to the input space. *)
Theorem default_decoder_ends enc opts kw self :
  __init__ enc None opts kw = Ok self →
  ∃ d, decoder self = Some d ∧
       FeedForward_init (rev enc) (kwargs_of (block_entry opts "decoder")) = Ok d ∧
       head (rev enc) = Some (out_features self) ∧
       last (rev enc) = Some (in_features self).
Proof.
  intros Hinit.
  destruct (init_blocks _ _ _ _ _ Hinit) as (e & d & _ & Hd & _ & Hbd & _).
  apply init_Ok_iff in Hinit as (a & z & n0 & e' & d' & Ha & Hz & _ & _ & _ & _ & ->).
  cbn in *. apply list_getitem_0_head in Ha. apply list_getitem_m1_last in Hz.
  exists d. rewrite head_rev, last_rev. done.
Qed.


(** On a non-empty width list and options that bind block names only, a
    [norm_in] entry that is neither [None], [False] nor a mapping
    ([True], [0], a string) makes the constructor fail with a type error,
    whatever the [encoder] and [decoder] entries and the sub-module
    constructors are: it fails before any sub-module is built. *)
Theorem bad_norm_in_entry_raises_TypeError enc dec opts kw :
  enc ≠ [] → only_block_keys opts = true →
  (let v := block_entry opts "norm_in" in is_None v || is_False v || is_dict v) = false →
  __init__ enc dec opts kw = Err TypeError.
Proof.
  intros Henc Hblocks Hv.
  assert (keys_known opts = true) as Hkeys.
  { unfold keys_known, only_block_keys in *.
    apply bool_decide_eq_true. apply bool_decide_eq_true in Hblocks.
    eapply map_Forall_impl; [exact Hblocks|].
    intros k v Hk. by apply block_known. }
  destruct (list_getitem_nonempty enc Henc) as (a & z & Ha & Hz).
  unfold __init__. rewrite Ha, Hz. cbn [mbind result_bind].
  destruct (parse_options opts) as [o|e] eqn:Hp;
    [|apply parse_options_Err in Hp; congruence].
  cbn [mbind result_bind].
  rewrite (parse_options_getitem _ _ "norm_in" Hp) by (unfold BLOCKS; set_solver).
  cbn [mbind result_bind]. cbv zeta in Hv.
  by destruct (block_entry opts "norm_in") as [|[]| | |dn]; cbn in *.
Qed.

(** The normalizer is on unless it is switched off: when no options are
    given, or the options do not bind [norm_in], or bind it to a mapping,
    the constructed model has a normalizer and [forward_cv] returns the
    encoder applied to the normalized input. *)
Theorem project_with_normalizer enc dec (opts : option (gmap string value)) kw self :
  __init__ enc dec opts kw = Ok self →
  opts = None ∨
  (∃ options : gmap string value,
     opts = Some options ∧
     (options !! "norm_in" = None ∨ ∃ kwn, options !! "norm_in" = Some (VDict kwn))) →
  ∃ n e, norm_in self = Some n ∧ encoder self = Some e ∧
         ∀ x, forward_cv self x = Ok (FeedForward_call e (Normalization_call n x)).
Proof.
  intros Hinit Hv.
  pose proof (init_norm_in _ _ _ _ _ Hinit) as Hnorm.
  destruct (init_blocks _ _ _ _ _ Hinit) as (e & d & He & _).
  assert (∃ n, norm_in self = Some n) as [n Hn].
  { unfold block_entry in Hnorm.
    destruct Hv as [-> | (options & -> & [Hv | [kwn Hv]])]; cbn in Hnorm;
      rewrite ?Hv in Hnorm; cbn in Hnorm;
      destruct Hnorm as (n & _ & Hn); by exists n. }
  exists n, e. split; [done|]. split; [done|]. intros x.
  rewrite (forward_cv_eq _ e) by done. by rewrite Hn.
Qed.

(** Without pre- and post-processing modules, the reconstruction of a
    constructed model is the decoder applied to the value [forward_cv]
    returns, followed by the inverse normalization when the model has a
    normalizer. *)
Theorem reconstruction_decodes_the_cv enc dec opts kw self :
  __init__ enc dec opts kw = Ok self →
  kw_preprocessing kw = None → kw_postprocessing kw = None →
  ∃ d, decoder self = Some d ∧
    ∀ x, ∃ cv, forward_cv self x = Ok cv ∧
               encode_decode self x =
               Ok (from_option (λ n, Normalization_inverse n (FeedForward_call d cv))
                     (FeedForward_call d cv) (norm_in self)).
Proof.
  intros Hinit Hpre Hpost.
  destruct (init_blocks _ _ _ _ _ Hinit) as (e & d & He & Hd & _ & _ & _ & Hp & Hq).
  exists d. split; [done|]. intros x. eexists. split.
  - by apply (forward_cv_eq _ e).
  - rewrite (encode_decode_eq _ e d) by done. cbn.
    by rewrite Hp, Hq, Hpre, Hpost.
Qed.

(** The training step reads the keys ["data"], ["weights"] and
    ["target"] and nothing else: two batches that agree on these three
    keys give the same outcome, whatever else they hold and whatever the
    batch index is. *)
Theorem training_step_reads_three_keys self (b1 b2 : gmap string tensor)
    (i1 i2 : Z) sink :
  b1 !! "data" = b2 !! "data" →
  b1 !! "weights" = b2 !! "weights" →
  b1 !! "target" = b2 !! "target" →
  training_step self b1 i1 sink = training_step self b2 i2 sink.
Proof.
  intros Hd Hw Ht.
  unfold training_step, dict_contains, dict_getitem. by rewrite Hd, Hw, Ht.
Qed.

(** Logging comes last in the training step: whatever the model and the
    batch, a failing step leaves the metrics sink as it was, and a step
    that returns a loss has appended exactly one entry, which carries
    that loss. *)
Theorem training_step_logs_last self (train_batch : gmap string tensor) (idx : Z) sink :
  match training_step self train_batch idx sink with
  | (Ok loss, sink') =>
      sink' = sink ++ [{| log_name := if training self then "train_loss" else "valid_loss";
                          log_value := loss; log_on_epoch := true |}]
  | (Err _, sink') => sink' = sink
  end.
Proof.
  unfold training_step, dict_contains, dict_getitem, lift, log, mbind, step_bind.
  destruct (train_batch !! "data") as [x|]; [|done].
  destruct (train_batch !! "weights"), (train_batch !! "target"); cbn;
    destruct (encode_decode self x); cbn; try done;
    destruct (loss_fn self); cbn; try done;
    by destruct (training self).
Qed.

End MoreOnConstruction.

(** ** The further properties at concrete inputs *)

Lemma explicit_decoder_layers_are_kept_witness :
  options_ok None = true ∧ submodules_ok toy_layers (Some []) None = true ∧
  ∃ self d, __init__ toy_layers (Some []) None no_kwargs = Ok self ∧
            decoder self = Some d ∧ ff_layers d = [].
Proof.
  do 2 (split; [reflexivity|]).
  destruct (explicit_decoder_layers_are_kept toy_layers [] None no_kwargs) as [Hkept Hex].
  destruct (Hex eq_refl eq_refl) as [self Hself].
  destruct (Hkept self Hself) as (d & Hd & Hbuilt).
  exists self, d. split; [exact Hself|]. split; [exact Hd|].
  apply Ok_inj in Hbuilt. by rewrite <- Hbuilt.
Defined.

Lemma features_are_the_end_widths_witness :
  let self := toy_model no_kwargs (Some (ToyNorm 8 ∅)) in
  __init__ toy_layers None None no_kwargs = Ok self ∧
  in_features self = 8 ∧ out_features self = 2 ∧
  ∃ a kwn, head toy_layers = Some a ∧ block_entry None "norm_in" = VDict kwn ∧
           Normalization_init a kwn = Ok (ToyNorm 8 ∅).
Proof.
  intros self.
  assert (__init__ toy_layers None None no_kwargs = Ok self) as Hinit by reflexivity.
  split; [exact Hinit|].
  destruct (features_are_the_end_widths toy_layers None None no_kwargs self Hinit)
    as (Hin & Hout & Hnorm).
  split; [exact (eq_sym (f_equal (default 0) Hin))|].
  split; [exact (eq_sym (f_equal (default 0) Hout))|].
  exact (Hnorm (ToyNorm 8 ∅) eq_refl).
Defined.

Lemma default_decoder_ends_witness :
  let self := toy_model no_kwargs (Some (ToyNorm 8 ∅)) in
  __init__ toy_layers None None no_kwargs = Ok self ∧
  head (rev toy_layers) = Some (out_features self) ∧
  last (rev toy_layers) = Some (in_features self).
Proof.
  intros self.
  assert (__init__ toy_layers None None no_kwargs = Ok self) as Hinit by reflexivity.
  split; [exact Hinit|].
  destruct (default_decoder_ends toy_layers None no_kwargs self Hinit)
    as (d & _ & _ & Hhead & Hlast).
  split; [exact Hhead|exact Hlast].
Defined.


Lemma bad_norm_in_entry_raises_TypeError_witness :
  let opts : option (gmap string value) :=
    Some {[ "norm_in" := VBool true; "encoder" := VNone ]} in
  toy_layers ≠ [] ∧ only_block_keys opts = true ∧
  __init__ toy_layers None opts no_kwargs = Err TypeError.
Proof.
  intros opts.
  assert (toy_layers ≠ []) as Hne by discriminate.
  assert (only_block_keys opts = true) as Hblocks by reflexivity.
  split; [exact Hne|]. split; [exact Hblocks|].
  exact (bad_norm_in_entry_raises_TypeError toy_layers None opts no_kwargs
           Hne Hblocks eq_refl).
Defined.

Lemma project_with_normalizer_witness :
  let self := toy_model no_kwargs (Some (ToyNorm 8 ∅)) in
  __init__ toy_layers None None no_kwargs = Ok self ∧
  forward_cv self [1; 2; 3] = Ok [-10; -8; -6].
Proof.
  intros self.
  assert (__init__ toy_layers None None no_kwargs = Ok self) as Hinit by reflexivity.
  split; [exact Hinit|].
  destruct (project_with_normalizer toy_layers None None no_kwargs self Hinit
              (or_introl eq_refl)) as (n & e & Hn & He & Hfw).
  injection Hn as <-. injection He as <-. exact (Hfw [1; 2; 3]).
Defined.

Lemma reconstruction_decodes_the_cv_witness :
  let self := toy_model no_kwargs (Some (ToyNorm 8 ∅)) in
  __init__ toy_layers None None no_kwargs = Ok self ∧
  kw_preprocessing no_kwargs = None ∧ kw_postprocessing no_kwargs = None ∧
  ∃ cv, forward_cv self [1; 2; 3] = Ok cv ∧
        encode_decode self [1; 2; 3] =
        Ok (Normalization_inverse (ToyNorm 8 ∅)
              (FeedForward_call (ToyFF [2; 4; 6; 8] ∅) cv)).
Proof.
  intros self.
  assert (__init__ toy_layers None None no_kwargs = Ok self) as Hinit by reflexivity.
  split; [exact Hinit|]. do 2 (split; [reflexivity|]).
  destruct (reconstruction_decodes_the_cv toy_layers None None no_kwargs self
              Hinit eq_refl eq_refl) as (d & Hd & Hrec).
  injection Hd as <-. exact (Hrec [1; 2; 3]).
Defined.

Lemma training_step_reads_three_keys_witness :
  let self := toy_model no_kwargs (Some (ToyNorm 8 ∅)) in
  toy_batch !! "data" = labelled_batch !! "data" ∧
  toy_batch !! "weights" = labelled_batch !! "weights" ∧
  toy_batch !! "target" = labelled_batch !! "target" ∧
  toy_batch ≠ labelled_batch ∧
  training_step self toy_batch 0 [] = training_step self labelled_batch 5 [].
Proof.
  intros self.
  assert (toy_batch !! "data" = labelled_batch !! "data") as Hd by reflexivity.
  assert (toy_batch !! "weights" = labelled_batch !! "weights") as Hw by reflexivity.
  assert (toy_batch !! "target" = labelled_batch !! "target") as Ht by reflexivity.
  do 3 (split; [assumption|]). split.
  - intros Heq. apply (f_equal (λ b : gmap string (list Z), b !! "labels")) in Heq.
    vm_compute in Heq. discriminate Heq.
  - exact (training_step_reads_three_keys self toy_batch labelled_batch 0 5 [] Hd Hw Ht).
Defined.
